(** * FastAPI-CRUD: the five handlers of [main.py] over the table [alumnos]

    The program is a FastAPI application with one SQLAlchemy table and five
    request handlers.  The embedding follows the source line by line:

    - the table [alumnos] is the list of its rows in scan order; the integer
      columns hold SQLite integers, which are signed and 64 bits wide;
    - a SQLAlchemy [Session] is the table together with the Python objects
      the request has created or loaded, addressed by reference;
    - a handler is a computation in a state-and-exception monad over the
      session, written with the same calls as the source ([db.add],
      [db.commit], [db.refresh], [db.query(...).filter(...).first()], ...);
    - a Python [int] is unbounded: a statement that binds one outside the
      64-bit range raises the driver's [OverflowError], and a commit that
      raises leaves the table as it was;
    - [get_db] opens a session on the database, runs the handler and closes
      the session on every exit path. *)

From Stdlib Require Import ZArith List String Bool Lia.
From Stdlib Require Import Permutation Eqdep_dec.
Import ListNotations.
Local Open Scope string_scope.
Local Open Scope list_scope.
Local Open Scope Z_scope.

(** ** SQLite integers *)

Definition INT64_MIN : Z := -9223372036854775808.

Definition INT64_MAX : Z := 9223372036854775807.

(** The Python integers the driver can bind to a statement. *)
Definition en_int64 (z : Z) : bool := (INT64_MIN <=? z) && (z <=? INT64_MAX).

Arguments en_int64 : simpl never.

Definition int64_dec (z : Z) : {en_int64 z = true} + {en_int64 z = false} :=
  match en_int64 z as b return {b = true} + {b = false} with
  | true => left eq_refl
  | false => right eq_refl
  end.

Arguments int64_dec : simpl never.

(** ** Data model *)

(** A row of [__tablename__ = "alumnos"]: the four columns of [class Alumno].
    What is stored in an INTEGER column is a 64-bit integer. *)
Module Fila.
Record t : Type := mk
  { id : Z;              (* Column(Integer, primary_key=True, index=True) *)
    nombre : string;     (* Column(String, index=True) *)
    semestre : Z;        (* Column(Integer) *)
    activo : bool;       (* Column(Boolean, default=True) *)
    id_int64 : en_int64 id = true;
    semestre_int64 : en_int64 semestre = true }.

(** The row [f] with its three other columns set. *)
Definition con (f : t) (nombre : string) (semestre : Z) (activo : bool)
           (Hs : en_int64 semestre = true) : t :=
  mk (id f) nombre semestre activo (id_int64 f) Hs.
End Fila.

Notation "'fila!' i n s a" := (Fila.mk i n s a eq_refl eq_refl)
  (at level 10, i at level 9, n at level 9, s at level 9, a at level 9).

(** An instance of the mapped class [Alumno] as a Python object: its [id]
    attribute is [None] until the row has been inserted. *)
Module Alumno.
Record t : Type := mk
  { id : option Z;
    nombre : string;
    semestre : Z;
    activo : bool }.
End Alumno.

(** [class AlumnoCreate(BaseModel)]: the validated body of POST and PUT. *)
Module AlumnoCreate.
Record t : Type := mk
  { nombre : string;
    semestre : Z;
    activo : bool }.

(** The model's constructor: [activo: bool = True] is used when the body
    has no [activo] field. *)
Definition init (nombre : string) (semestre : Z) (activo : option bool) : t :=
  mk nombre semestre (match activo with Some b => b | None => true end).
End AlumnoCreate.

(** [class AlumnoResponse(AlumnoCreate)]: the fields of [AlumnoCreate] and [id: int]. *)
Module AlumnoResponse.
Record t : Type := mk
  { nombre : string;
    semestre : Z;
    activo : bool;
    id : Z }.
End AlumnoResponse.

(** The table, in the order a scan returns its rows. *)
Definition Tabla : Type := list Fila.t.

Definition claves (t : Tabla) : list Z := map Fila.id t.

(** The primary-key constraint on column [id]. *)
Definition clave_primaria (t : Tabla) : Prop := NoDup (claves t).

(** ** The storage engine's key allocation

    [crear_alumno] never sets [id]: the engine chooses the key of an inserted
    row.  The handlers are verified against any engine that returns a key
    not in use; an engine that has no 64-bit key left to give reports the
    database full. *)
Class Motor : Type :=
  { clave_nueva : Tabla -> Z;
    clave_nueva_libre : forall t : Tabla, ~ In (clave_nueva t) (claves t) }.

(** [DATABASE_URL = "sqlite:///./taller.db"]: an INTEGER PRIMARY KEY column of
    SQLite receives one more than the largest key in use, and 1 in an empty
    table.  When the largest key in use is [INT64_MAX] SQLite looks for an
    unused key at random, which is no function of the table, and reports the
    database full when it finds none: there the key below is not a 64-bit
    integer and [sql_insert] ends with that error. *)
Fixpoint max_rowid (t : Tabla) : option Z :=
  match t with
  | [] => None
  | f :: t' =>
      match max_rowid t' with
      | None => Some (Fila.id f)
      | Some m => Some (Z.max (Fila.id f) m)
      end
  end.

Definition rowid_siguiente (t : Tabla) : Z :=
  match max_rowid t with
  | None => 1
  | Some m => m + 1
  end.

(** ** Sessions *)

(** The states of an object with respect to the session. *)
Inductive Estado : Type :=
| Transient      (* constructed, not added *)
| Pending        (* added, INSERT not yet emitted *)
| Persistent     (* has a row *)
| Deleted.       (* marked by [db.delete], or its DELETE emitted *)

Record Objeto : Type := mkObjeto
  { attrs : Alumno.t;
    estado : Estado;
    modificado : bool }.   (* an attribute was assigned since the object was loaded *)

(** A reference to a Python object: its position in the session's objects. *)
Definition Ref : Type := nat.

Record Session : Type := mkSession
  { tabla : Tabla;              (* the database the session is bound to *)
    objetos : list Objeto }.    (* the objects of this request *)

Inductive Excepcion : Type :=
| HTTPException (status_code : Z) (detail : string)
| RequestValidationError       (* the body does not have the shape of the model (422) *)
| ResponseValidationError      (* the returned object does not fit [response_model] *)
| InvalidRequestError          (* SQLAlchemy: the object is not in a state the call accepts *)
| OverflowError                (* the driver: Python int too large to convert to SQLite INTEGER *)
| OperationalError.            (* the engine: database or disk is full *)

(** State over the session, with exceptions; an exception keeps the state
    reached so far (what was committed stays committed). *)
Definition Ses (A : Type) : Type := Session -> (Excepcion + A) * Session.

Definition ret {A : Type} (a : A) : Ses A := fun s => (inr a, s).

Definition bind {A B : Type} (m : Ses A) (k : A -> Ses B) : Ses B :=
  fun s =>
    match m s with
    | (inl e, s') => (inl e, s')
    | (inr a, s') => k a s'
    end.

Definition raise {A : Type} (e : Excepcion) : Ses A := fun s => (inl e, s).

Declare Scope ses_scope.
Delimit Scope ses_scope with ses.
Notation "x <- m ;; k" := (bind m (fun x => k))
  (at level 61, m at next level, right associativity) : ses_scope.
Notation "m ;; k" := (bind m (fun _ => k))
  (at level 61, right associativity) : ses_scope.
Local Open Scope ses_scope.

Fixpoint mapM {A B : Type} (f : A -> Ses B) (l : list A) : Ses (list B) :=
  match l with
  | [] => ret []
  | a :: l' => b <- f a ;; bs <- mapM f l' ;; ret (b :: bs)
  end.

(** *** Objects *)

Fixpoint reemplazar {A : Type} (l : list A) (n : nat) (a : A) : list A :=
  match l, n with
  | [], _ => []
  | _ :: l', O => a :: l'
  | x :: l', S n' => x :: reemplazar l' n' a
  end.

Definition nuevo_objeto (o : Objeto) : Ses Ref :=
  fun s => (inr (List.length (objetos s)),
            mkSession (tabla s) (objetos s ++ [o])).

Definition objeto (r : Ref) : Ses Objeto :=
  fun s =>
    match nth_error (objetos s) r with
    | Some o => (inr o, s)
    | None => (inl InvalidRequestError, s)
    end.

Definition poner_objeto (r : Ref) (o : Objeto) : Ses unit :=
  fun s => (inr tt, mkSession (tabla s) (reemplazar (objetos s) r o)).

(** [Alumno(nombre=..., semestre=..., activo=...)] *)
Definition Alumno_init (nombre : string) (semestre : Z) (activo : bool) : Ses Ref :=
  nuevo_objeto (mkObjeto (Alumno.mk None nombre semestre activo) Transient false).

(** [db_alumno.nombre = v], [db_alumno.semestre = v], [db_alumno.activo = v] *)
Definition set_nombre (r : Ref) (v : string) : Ses unit :=
  o <- objeto r ;;
  let a := attrs o in
  poner_objeto r
    (mkObjeto (Alumno.mk (Alumno.id a) v (Alumno.semestre a) (Alumno.activo a))
              (estado o) true).

Definition set_semestre (r : Ref) (v : Z) : Ses unit :=
  o <- objeto r ;;
  let a := attrs o in
  poner_objeto r
    (mkObjeto (Alumno.mk (Alumno.id a) (Alumno.nombre a) v (Alumno.activo a))
              (estado o) true).

Definition set_activo (r : Ref) (v : bool) : Ses unit :=
  o <- objeto r ;;
  let a := attrs o in
  poner_objeto r
    (mkObjeto (Alumno.mk (Alumno.id a) (Alumno.nombre a) (Alumno.semestre a) v)
              (estado o) true).

(** *** Statements on the table *)

Definition por_id (i : Z) (f : Fila.t) : bool := Fila.id f =? i.

Definition por_activo (b : bool) (f : Fila.t) : bool := Bool.eqb (Fila.activo f) b.

(** The criteria the handlers filter by: [Alumno.id == alumno_id] and
    [Alumno.activo == activo]. *)
Inductive Criterio : Type :=
| Id_igual (alumno_id : Z)
| Activo_igual (activo : bool).

(** The driver binds the criterion's value to the statement. *)
Definition se_puede_enlazar (c : Criterio) : bool :=
  match c with
  | Id_igual alumno_id => en_int64 alumno_id
  | Activo_igual _ => true
  end.

Definition cumple (c : Criterio) : Fila.t -> bool :=
  match c with
  | Id_igual alumno_id => por_id alumno_id
  | Activo_igual activo => por_activo activo
  end.

(** The rows of [t], those of key [i] rewritten with the three columns. *)
Definition reescribir (i : Z) (nombre : string) (semestre : Z) (activo : bool)
           (Hs : en_int64 semestre = true) (t : Tabla) : Tabla :=
  map (fun f => if por_id i f then Fila.con f nombre semestre activo Hs else f) t.

(** The rows of [t] but those of key [i]. *)
Definition borrar (i : Z) (t : Tabla) : Tabla :=
  filter (fun f => negb (por_id i f)) t.

(** [UPDATE alumnos SET nombre=?, semestre=?, activo=? WHERE alumnos.id = ?] *)
Definition sql_update (i : Z) (a : Alumno.t) (t : Tabla) : Excepcion + Tabla :=
  match int64_dec (Alumno.semestre a) with
  | left Hs =>
      if en_int64 i
      then inr (reescribir i (Alumno.nombre a) (Alumno.semestre a) (Alumno.activo a) Hs t)
      else inl OverflowError
  | right _ => inl OverflowError
  end.

(** [DELETE FROM alumnos WHERE alumnos.id = ?] *)
Definition sql_delete (i : Z) (t : Tabla) : Excepcion + Tabla :=
  if en_int64 i then inr (borrar i t) else inl OverflowError.

Section Handlers.

Context {motor : Motor}.

(** [INSERT INTO alumnos (nombre, semestre, activo) VALUES (?, ?, ?)]:
    the values are bound first, then the engine gives the new row its key. *)
Definition sql_insert (a : Alumno.t) (t : Tabla) : Excepcion + (Z * Tabla) :=
  match int64_dec (Alumno.semestre a) with
  | left Hs =>
      let k := clave_nueva t in
      match int64_dec k with
      | left Hk =>
          inr (k, t ++ [Fila.mk k (Alumno.nombre a) (Alumno.semestre a) (Alumno.activo a)
                                Hk Hs])
      | right _ => inl OperationalError
      end
  | right _ => inl OverflowError
  end.

(** What [flush] emits for one object. *)
Definition flush_objeto (o : Objeto) (t : Tabla) : Excepcion + (Objeto * Tabla) :=
  let a := attrs o in
  match estado o with
  | Transient => inr (o, t)
  | Pending =>
      match sql_insert a t with
      | inr (k, t') =>
          inr (mkObjeto (Alumno.mk (Some k) (Alumno.nombre a) (Alumno.semestre a)
                                   (Alumno.activo a))
                        Persistent false, t')
      | inl e => inl e
      end
  | Persistent =>
      match modificado o, Alumno.id a with
      | true, Some k =>
          match sql_update k a t with
          | inr t' => inr (mkObjeto a Persistent false, t')
          | inl e => inl e
          end
      | _, _ => inr (o, t)
      end
  | Deleted =>
      match Alumno.id a with
      | Some k =>
          match sql_delete k t with
          | inr t' => inr (o, t')
          | inl e => inl e
          end
      | None => inr (o, t)
      end
  end.

Fixpoint flush (os : list Objeto) (t : Tabla) : Excepcion + (list Objeto * Tabla) :=
  match os with
  | [] => inr ([], t)
  | o :: os' =>
      match flush_objeto o t with
      | inr (o', t') =>
          match flush os' t' with
          | inr (os'', t'') => inr (o' :: os'', t'')
          | inl e => inl e
          end
      | inl e => inl e
      end
  end.

(** [db.add(obj)] *)
Definition db_add (r : Ref) : Ses unit :=
  o <- objeto r ;;
  match estado o with
  | Transient => poner_objeto r (mkObjeto (attrs o) Pending (modificado o))
  | Pending | Persistent => ret tt
  | Deleted => raise InvalidRequestError
  end.

(** [db.delete(obj)] *)
Definition db_delete (r : Ref) : Ses unit :=
  o <- objeto r ;;
  match estado o with
  | Persistent => poner_objeto r (mkObjeto (attrs o) Deleted (modificado o))
  | Deleted => ret tt
  | Transient | Pending => raise InvalidRequestError
  end.

(** [db.commit()]: the pending changes are written to the database.  When a
    statement of the flush raises, the transaction is rolled back and the
    exception goes on to the caller: the table is as it was. *)
Definition db_commit : Ses unit :=
  fun s =>
    match flush (objetos s) (tabla s) with
    | inr (os, t) => (inr tt, mkSession t os)
    | inl e => (inl e, s)
    end.

(** [db.refresh(obj)]: the attributes are read again from the object's row. *)
Definition db_refresh (r : Ref) : Ses unit :=
  o <- objeto r ;;
  match estado o, Alumno.id (attrs o) with
  | Persistent, Some k =>
      fun s =>
        if en_int64 k then
          match find (por_id k) (tabla s) with
          | Some f =>
              poner_objeto r
                (mkObjeto (Alumno.mk (Some (Fila.id f)) (Fila.nombre f)
                                     (Fila.semestre f) (Fila.activo f))
                          Persistent false) s
          | None => (inl InvalidRequestError, s)
          end
        else (inl OverflowError, s)
  | _, _ => raise InvalidRequestError
  end.

(** A row read by a query becomes a persistent object. *)
Definition cargar (f : Fila.t) : Ses Ref :=
  nuevo_objeto
    (mkObjeto (Alumno.mk (Some (Fila.id f)) (Fila.nombre f) (Fila.semestre f) (Fila.activo f))
              Persistent false).

(** [db.query(Alumno).filter(c).first()] *)
Definition query_filter_first (c : Criterio) : Ses (option Ref) :=
  fun s =>
    if se_puede_enlazar c then
      match find (cumple c) (tabla s) with
      | Some f => (r <- cargar f ;; ret (Some r)) s
      | None => (inr None, s)
      end
    else (inl OverflowError, s).

(** [db.query(Alumno).filter(c).all()] *)
Definition query_filter_all (c : Criterio) : Ses (list Ref) :=
  fun s =>
    if se_puede_enlazar c
    then mapM cargar (filter (cumple c) (tabla s)) s
    else (inl OverflowError, s).

(** [response_model=AlumnoResponse]: the returned object's attributes are
    read into the response model. *)
Definition response_model (r : Ref) : Ses AlumnoResponse.t :=
  o <- objeto r ;;
  let a := attrs o in
  match Alumno.id a with
  | Some k => ret (AlumnoResponse.mk (Alumno.nombre a) (Alumno.semestre a) (Alumno.activo a) k)
  | None => raise ResponseValidationError
  end.

(** ** The handlers *)

(** [@app.post("/alumnos/", response_model=AlumnoResponse)] *)
Definition crear_alumno (alumno : AlumnoCreate.t) : Ses AlumnoResponse.t :=
  db_alumno <- Alumno_init (AlumnoCreate.nombre alumno)
                           (AlumnoCreate.semestre alumno)
                           (AlumnoCreate.activo alumno) ;;
  db_add db_alumno ;;
  db_commit ;;
  db_refresh db_alumno ;;
  response_model db_alumno.

(** [@app.get("/alumnos/{alumno_id}", response_model=AlumnoResponse)] *)
Definition leer_alumno (alumno_id : Z) : Ses AlumnoResponse.t :=
  alumno <- query_filter_first (Id_igual alumno_id) ;;
  match alumno with
  | None => raise (HTTPException 404 "Alumno no encontrado")
  | Some alumno => response_model alumno
  end.

(** [@app.get("/alumnos/", response_model=list[AlumnoResponse])];
    [activo: bool = True]: [None] is a request without the query parameter. *)
Definition leer_alumnos (activo : option bool) : Ses (list AlumnoResponse.t) :=
  let activo := match activo with Some b => b | None => true end in
  alumnos <- query_filter_all (Activo_igual activo) ;;
  mapM response_model alumnos.

(** [@app.put("/alumnos/{alumno_id}", response_model=AlumnoResponse)] *)
Definition actualizar_alumno (alumno_id : Z) (alumno : AlumnoCreate.t)
  : Ses AlumnoResponse.t :=
  db_alumno <- query_filter_first (Id_igual alumno_id) ;;
  match db_alumno with
  | None => raise (HTTPException 404 "Alumno no encontrado")
  | Some db_alumno =>
      set_nombre db_alumno (AlumnoCreate.nombre alumno) ;;
      set_semestre db_alumno (AlumnoCreate.semestre alumno) ;;
      set_activo db_alumno (AlumnoCreate.activo alumno) ;;
      db_commit ;;
      db_refresh db_alumno ;;
      response_model db_alumno
  end.

(** [@app.delete("/alumnos/{alumno_id}")]: the result is the dictionary
    [{"detail": "Alumno eliminado"}]. *)
Definition eliminar_alumno (alumno_id : Z) : Ses (list (string * string)) :=
  alumno <- query_filter_first (Id_igual alumno_id) ;;
  match alumno with
  | None => raise (HTTPException 404 "Alumno no encontrado")
  | Some alumno =>
      db_delete alumno ;;
      db_commit ;;
      ret [("detail", "Alumno eliminado")]
  end.

(** ** Requests *)

(** [SessionLocal()]: a new session, with no objects, on the database. *)
Definition SessionLocal (bd : Tabla) : Session := mkSession bd [].

(** [Depends(get_db)]: the handler runs in a session of its own, which is
    closed in the [finally] branch; what the request leaves behind is the
    database as last committed. *)
Definition get_db {A : Type} (handler : Ses A) (bd : Tabla) : (Excepcion + A) * Tabla :=
  let db := SessionLocal bd in
  let '(respuesta, db') := handler db in
  (respuesta, tabla db').

End Handlers.

(** ** What each request computes *)

Definition respuesta (f : Fila.t) : AlumnoResponse.t :=
  AlumnoResponse.mk (Fila.nombre f) (Fila.semestre f) (Fila.activo f) (Fila.id f).

Definition no_encontrado : Excepcion := HTTPException 404 "Alumno no encontrado".

Definition existe (i : Z) (t : Tabla) : Prop := In i (claves t).

Definition existeb (i : Z) (t : Tabla) : bool := existsb (Z.eqb i) (claves t).

(** The object a query builds from a row. *)
Definition objeto_de (f : Fila.t) : Objeto :=
  mkObjeto (Alumno.mk (Some (Fila.id f)) (Fila.nombre f) (Fila.semestre f) (Fila.activo f))
           Persistent false.

(** ** The operations as a transition system on the database *)

Inductive Operacion : Type :=
| Crear (alumno : AlumnoCreate.t)
| Leer (alumno_id : Z)
| Listar (activo : option bool)
| Actualizar (alumno_id : Z) (alumno : AlumnoCreate.t)
| Eliminar (alumno_id : Z).

(** The database a request leaves behind. *)
Definition base_tras {motor : Motor} (op : Operacion) (bd : Tabla) : Tabla :=
  match op with
  | Crear alumno => snd (get_db (crear_alumno alumno) bd)
  | Leer alumno_id => snd (get_db (leer_alumno alumno_id) bd)
  | Listar activo => snd (get_db (leer_alumnos activo) bd)
  | Actualizar alumno_id alumno => snd (get_db (actualizar_alumno alumno_id alumno) bd)
  | Eliminar alumno_id => snd (get_db (eliminar_alumno alumno_id) bd)
  end.

(** Requests served one after the other. *)
Definition ejecutar {motor : Motor} (ops : list Operacion) (bd : Tabla) : Tabla :=
  fold_left (fun t op => base_tras op t) ops bd.

(** The exception a request ends with, if it does. *)
Definition error_de {A : Type} (r : Excepcion + A) : option Excepcion :=
  match r with
  | inl e => Some e
  | inr _ => None
  end.

Definition excepcion_de {motor : Motor} (op : Operacion) (bd : Tabla) : option Excepcion :=
  match op with
  | Crear alumno => error_de (fst (get_db (crear_alumno alumno) bd))
  | Leer alumno_id => error_de (fst (get_db (leer_alumno alumno_id) bd))
  | Listar activo => error_de (fst (get_db (leer_alumnos activo) bd))
  | Actualizar alumno_id alumno => error_de (fst (get_db (actualizar_alumno alumno_id alumno) bd))
  | Eliminar alumno_id => error_de (fst (get_db (eliminar_alumno alumno_id) bd))
  end.

(** The [id] a request is about: the path parameter, or for a create the key
    the engine gives the new row. *)
Definition id_de {motor : Motor} (op : Operacion) (bd : Tabla) : option Z :=
  match op with
  | Crear _ => Some (clave_nueva bd)
  | Leer alumno_id | Actualizar alumno_id _ | Eliminar alumno_id => Some alumno_id
  | Listar _ => None
  end.

(** A database to run the handlers on. *)
Definition bd_ejemplo : Tabla :=
  [fila! 1 "Ana" 3 true; fila! 2 "Luis" 5 false; fila! 4 "Eva" 1 true].

(** A Python integer one above the largest SQLite integer. *)
Definition fuera_de_rango : Z := 9223372036854775808.

(** * Verification *)

(** ** SQLite integers and rows *)

Lemma en_int64_spec (z : Z) : en_int64 z = true <-> INT64_MIN <= z <= INT64_MAX.
Proof.
  unfold en_int64. rewrite andb_true_iff, !Z.leb_le. tauto.
Qed.

Lemma en_int64_unica (z : Z) (p q : en_int64 z = true) : p = q.
Proof. apply UIP_dec, bool_dec. Qed.

(** A row is its four columns. *)
Lemma Fila_ext (f g : Fila.t) :
  Fila.id f = Fila.id g -> Fila.nombre f = Fila.nombre g ->
  Fila.semestre f = Fila.semestre g -> Fila.activo f = Fila.activo g -> f = g.
Proof.
  destruct f as [i n s a Hi Hs], g as [i' n' s' a' Hi' Hs']; simpl.
  intros -> -> -> ->.
  now rewrite (en_int64_unica _ Hi Hi'), (en_int64_unica _ Hs Hs').
Qed.

Lemma respuesta_inj (f g : Fila.t) : respuesta f = respuesta g -> f = g.
Proof.
  unfold respuesta. intros H. injection H as Hn Hs Ha Hi. now apply Fila_ext.
Qed.

Lemma int64_dec_true (z : Z) (H : en_int64 z = true) : int64_dec z = left H.
Proof.
  destruct (int64_dec z) as [H'|H']; [|congruence].
  f_equal. apply en_int64_unica.
Qed.

Lemma int64_dec_false (z : Z) (H : en_int64 z = false) :
  exists H', int64_dec z = right H'.
Proof.
  destruct (int64_dec z) as [H'|H']; [congruence|]. now exists H'.
Qed.

Lemma existe_en_int64 (i : Z) (t : Tabla) : existe i t -> en_int64 i = true.
Proof.
  unfold existe, claves. intros H. apply in_map_iff in H.
  destruct H as (f & <- & _). apply Fila.id_int64.
Qed.

(** ** The SQLite engine *)

Lemma max_rowid_cota (t : Tabla) (k : Z) :
  In k (claves t) -> exists m, max_rowid t = Some m /\ k <= m.
Proof.
  induction t as [|f t IH]; simpl; [tauto|].
  intros [<-|Hk].
  - destruct (max_rowid t) as [m|]; eexists; split; try reflexivity; lia.
  - destruct (IH Hk) as (m & -> & Hm). eexists; split; [reflexivity|lia].
Qed.

Lemma rowid_siguiente_libre (t : Tabla) : ~ In (rowid_siguiente t) (claves t).
Proof.
  intros Hin. destruct (max_rowid_cota _ _ Hin) as (m & Hm & Hle).
  unfold rowid_siguiente in Hle. rewrite Hm in Hle. lia.
Qed.

#[export] Instance sqlite : Motor :=
  {| clave_nueva := rowid_siguiente;
     clave_nueva_libre := rowid_siguiente_libre |}.

(** ** Lists of rows *)

Lemma por_id_true (i : Z) (f : Fila.t) : por_id i f = true <-> Fila.id f = i.
Proof. unfold por_id. apply Z.eqb_eq. Qed.

Lemma por_id_false (i : Z) (f : Fila.t) : por_id i f = false <-> Fila.id f <> i.
Proof. unfold por_id. apply Z.eqb_neq. Qed.

Lemma find_por_id_None (i : Z) (t : Tabla) :
  find (por_id i) t = None <-> ~ existe i t.
Proof.
  unfold existe, claves. induction t as [|f t IH]; simpl.
  - tauto.
  - destruct (por_id i f) eqn:E.
    + apply por_id_true in E. split; [discriminate | intros H; exfalso; apply H; auto].
    + apply por_id_false in E. rewrite IH. tauto.
Qed.

Lemma find_por_id_Some (i : Z) (t : Tabla) (f : Fila.t) :
  find (por_id i) t = Some f -> In f t /\ Fila.id f = i.
Proof.
  intros H. apply find_some in H. now rewrite por_id_true in H.
Qed.

Lemma find_por_id_existe (i : Z) (t : Tabla) (f : Fila.t) :
  find (por_id i) t = Some f -> existe i t.
Proof.
  intros H. destruct (find_por_id_Some _ _ _ H) as [Hin <-].
  unfold existe, claves. now apply in_map.
Qed.

Lemma existe_find (i : Z) (t : Tabla) :
  existe i t -> exists f, find (por_id i) t = Some f.
Proof.
  intros H. destruct (find (por_id i) t) as [f|] eqn:E.
  - now exists f.
  - apply find_por_id_None in E. contradiction.
Qed.

Lemma find_fuera_de_int64 (i : Z) (t : Tabla) :
  en_int64 i = false -> find (por_id i) t = None.
Proof.
  intros H. apply find_por_id_None. intros Hex.
  apply existe_en_int64 in Hex. congruence.
Qed.

Lemma find_por_id_unica (i : Z) (t : Tabla) (f : Fila.t) :
  clave_primaria t -> In f t -> Fila.id f = i -> find (por_id i) t = Some f.
Proof.
  unfold clave_primaria, claves. induction t as [|g t IH]; simpl; [tauto|].
  intros Hnd Hin Hid. inversion Hnd as [|? ? Hnotin Hnd']; subst.
  destruct Hin as [->|Hin].
  - now rewrite (proj2 (por_id_true _ _) eq_refl).
  - destruct (por_id (Fila.id f) g) eqn:E.
    + apply por_id_true in E. exfalso. apply Hnotin. rewrite E. now apply in_map.
    + now apply IH.
Qed.

Lemma find_app_libre (k : Z) (t : Tabla) (f : Fila.t) :
  ~ existe k t -> Fila.id f = k -> find (por_id k) (t ++ [f]) = Some f.
Proof.
  intros Hk Hf. apply find_por_id_None in Hk.
  induction t as [|g t IH]; simpl in *.
  - now rewrite (proj2 (por_id_true _ _) Hf).
  - destruct (por_id k g); [discriminate | now apply IH].
Qed.

Lemma find_app_otro (j : Z) (f : Fila.t) (t : Tabla) :
  Fila.id f <> j -> find (por_id j) (t ++ [f]) = find (por_id j) t.
Proof.
  intros Hf. induction t as [|g t IH]; simpl.
  - now rewrite (proj2 (por_id_false j f) Hf).
  - destruct (por_id j g); [reflexivity | exact IH].
Qed.

Lemma find_reescribir (i : Z) (n : string) (s : Z) (a : bool)
      (Hs : en_int64 s = true) (t : Tabla) (f : Fila.t) :
  find (por_id i) t = Some f ->
  find (por_id i) (reescribir i n s a Hs t) = Some (Fila.con f n s a Hs).
Proof.
  unfold reescribir. induction t as [|g t IH]; simpl; [discriminate|].
  destruct (por_id i g) eqn:E.
  - intros H. injection H as <-. apply por_id_true in E.
    unfold por_id at 1. simpl. now rewrite E, Z.eqb_refl.
  - intros H. rewrite E. now apply IH.
Qed.

Lemma find_reescribir_otro (i j : Z) (n : string) (s : Z) (a : bool)
      (Hs : en_int64 s = true) (t : Tabla) :
  i <> j -> find (por_id j) (reescribir i n s a Hs t) = find (por_id j) t.
Proof.
  intros Hij. unfold reescribir. induction t as [|f t IH]; simpl; [reflexivity|].
  destruct (por_id i f) eqn:Ei.
  - apply por_id_true in Ei.
    assert (E1 : por_id j (Fila.con f n s a Hs) = false)
      by (apply por_id_false; simpl; congruence).
    rewrite E1, (proj2 (por_id_false j f)) by congruence. exact IH.
  - destruct (por_id j f); [reflexivity | exact IH].
Qed.

Lemma find_borrar_otro (i j : Z) (t : Tabla) :
  i <> j -> find (por_id j) (borrar i t) = find (por_id j) t.
Proof.
  intros Hij. unfold borrar. induction t as [|f t IH]; simpl; [reflexivity|].
  destruct (por_id i f) eqn:Ei; simpl.
  - apply por_id_true in Ei.
    rewrite (proj2 (por_id_false j f)) by congruence. exact IH.
  - destruct (por_id j f); [reflexivity | exact IH].
Qed.

Lemma reescribir_inexistente (i : Z) (n : string) (s : Z) (a : bool)
      (Hs : en_int64 s = true) (t : Tabla) :
  ~ existe i t -> reescribir i n s a Hs t = t.
Proof.
  intros H. unfold reescribir. rewrite <- (map_id t) at 2.
  apply map_ext_in. intros f Hf.
  destruct (por_id i f) eqn:E; [|reflexivity].
  exfalso. apply H. apply por_id_true in E. rewrite <- E.
  unfold existe, claves. now apply in_map.
Qed.

Lemma borrar_inexistente (i : Z) (t : Tabla) : ~ existe i t -> borrar i t = t.
Proof.
  intros H. apply find_por_id_None in H.
  unfold borrar. induction t as [|f t IH]; simpl in *; [reflexivity|].
  destruct (por_id i f); [discriminate|]. simpl. now rewrite IH.
Qed.

Lemma claves_reescribir (i : Z) (n : string) (s : Z) (a : bool)
      (Hs : en_int64 s = true) (t : Tabla) :
  claves (reescribir i n s a Hs t) = claves t.
Proof.
  unfold claves, reescribir. rewrite map_map. apply map_ext.
  intros f. now destruct (por_id i f).
Qed.

Lemma claves_borrar (i : Z) (t : Tabla) :
  claves (borrar i t) = filter (fun k => negb (k =? i)) (claves t).
Proof.
  unfold claves, borrar, por_id. induction t as [|f t IH]; simpl; [reflexivity|].
  destruct (Fila.id f =? i); simpl; now rewrite IH.
Qed.

Lemma claves_app (t u : Tabla) : claves (t ++ u) = claves t ++ claves u.
Proof. apply map_app. Qed.

Lemma no_existe_borrar (i : Z) (t : Tabla) : ~ existe i (borrar i t).
Proof.
  unfold existe. rewrite claves_borrar, filter_In, Z.eqb_refl.
  simpl. intros [_ ?]; discriminate.
Qed.

Section Ecuaciones.

Context {motor : Motor}.

(** ** One equation per handler *)

(** Runs the session calls of a handler as far as they compute. *)
Ltac ejecuta :=
  unfold get_db, SessionLocal; simpl;
  repeat (unfold bind, ret, raise, objeto, poner_objeto, nuevo_objeto, cargar,
            Alumno_init, set_nombre, set_semestre, set_activo,
            db_add, db_delete, db_commit, db_refresh, response_model,
            query_filter_first, flush_objeto, sql_insert, sql_update, sql_delete;
          simpl).

Lemma crear_alumno_eq (alumno : AlumnoCreate.t) (bd : Tabla) :
  get_db (crear_alumno alumno) bd
  = match int64_dec (AlumnoCreate.semestre alumno) with
    | left Hs =>
        match int64_dec (clave_nueva bd) with
        | left Hk =>
            (inr (AlumnoResponse.mk (AlumnoCreate.nombre alumno)
                                    (AlumnoCreate.semestre alumno)
                                    (AlumnoCreate.activo alumno) (clave_nueva bd)),
             bd ++ [Fila.mk (clave_nueva bd) (AlumnoCreate.nombre alumno)
                            (AlumnoCreate.semestre alumno)
                            (AlumnoCreate.activo alumno) Hk Hs])
        | right _ => (inl OperationalError, bd)
        end
    | right _ => (inl OverflowError, bd)
    end.
Proof.
  unfold crear_alumno. ejecuta.
  destruct (int64_dec (AlumnoCreate.semestre alumno)) as [Hs|Hs]; [|reflexivity].
  destruct (int64_dec (clave_nueva bd)) as [Hk|Hk]; [|reflexivity].
  ejecuta.
  set (f := Fila.mk (clave_nueva bd) (AlumnoCreate.nombre alumno)
                    (AlumnoCreate.semestre alumno) (AlumnoCreate.activo alumno) Hk Hs).
  rewrite Hk. ejecuta.
  rewrite (find_app_libre (clave_nueva bd) bd f (clave_nueva_libre bd) eq_refl).
  reflexivity.
Qed.

Lemma leer_alumno_eq (alumno_id : Z) (bd : Tabla) :
  get_db (leer_alumno alumno_id) bd
  = (if en_int64 alumno_id
     then match find (por_id alumno_id) bd with
          | Some f => inr (respuesta f)
          | None => inl no_encontrado
          end
     else inl OverflowError, bd).
Proof.
  unfold leer_alumno. ejecuta.
  destruct (en_int64 alumno_id); [|reflexivity].
  destruct (find (por_id alumno_id) bd) as [f|]; reflexivity.
Qed.

Lemma actualizar_alumno_eq (alumno_id : Z) (alumno : AlumnoCreate.t) (bd : Tabla) :
  get_db (actualizar_alumno alumno_id alumno) bd
  = if en_int64 alumno_id
    then match find (por_id alumno_id) bd with
         | Some _ =>
             match int64_dec (AlumnoCreate.semestre alumno) with
             | left Hs =>
                 (inr (AlumnoResponse.mk (AlumnoCreate.nombre alumno)
                                         (AlumnoCreate.semestre alumno)
                                         (AlumnoCreate.activo alumno) alumno_id),
                  reescribir alumno_id (AlumnoCreate.nombre alumno)
                             (AlumnoCreate.semestre alumno)
                             (AlumnoCreate.activo alumno) Hs bd)
             | right _ => (inl OverflowError, bd)
             end
         | None => (inl no_encontrado, bd)
         end
    else (inl OverflowError, bd).
Proof.
  unfold actualizar_alumno. ejecuta.
  destruct (en_int64 alumno_id) eqn:Hi; [|reflexivity].
  destruct (find (por_id alumno_id) bd) as [f|] eqn:E; [|reflexivity].
  destruct (find_por_id_Some _ _ _ E) as [_ Hid]. subst alumno_id.
  ejecuta.
  destruct (int64_dec (AlumnoCreate.semestre alumno)) as [Hs|Hs]; [|reflexivity].
  rewrite Hi. ejecuta. rewrite Hi.
  rewrite (find_reescribir _ _ _ _ Hs _ _ E). reflexivity.
Qed.

Lemma eliminar_alumno_eq (alumno_id : Z) (bd : Tabla) :
  get_db (eliminar_alumno alumno_id) bd
  = if en_int64 alumno_id
    then match find (por_id alumno_id) bd with
         | Some _ => (inr [("detail", "Alumno eliminado")], borrar alumno_id bd)
         | None => (inl no_encontrado, bd)
         end
    else (inl OverflowError, bd).
Proof.
  unfold eliminar_alumno. ejecuta.
  destruct (en_int64 alumno_id) eqn:Hi; [|reflexivity].
  destruct (find (por_id alumno_id) bd) as [f|] eqn:E; [|reflexivity].
  destruct (find_por_id_Some _ _ _ E) as [_ Hid]. subst alumno_id.
  ejecuta. rewrite Hi. reflexivity.
Qed.

Lemma mapM_cargar (filas : list Fila.t) (t : Tabla) (os : list Objeto) :
  mapM cargar filas (mkSession t os)
  = (inr (seq (List.length os) (List.length filas)),
     mkSession t (os ++ map objeto_de filas)).
Proof.
  revert os. induction filas as [|f filas IH]; intros os; simpl.
  - now rewrite app_nil_r.
  - unfold bind at 1. unfold cargar at 1, nuevo_objeto. simpl.
    unfold bind at 1. rewrite IH. unfold ret. simpl.
    rewrite length_app, <- app_assoc. simpl.
    now rewrite Nat.add_1_r.
Qed.

Lemma mapM_response_model (filas : list Fila.t) (t : Tabla) (pre post : list Objeto) :
  mapM response_model (seq (List.length pre) (List.length filas))
       (mkSession t (pre ++ map objeto_de filas ++ post))
  = (inr (map respuesta filas), mkSession t (pre ++ map objeto_de filas ++ post)).
Proof.
  revert pre. induction filas as [|f filas IH]; intros pre; simpl; [reflexivity|].
  unfold bind at 1. unfold response_model at 1, bind, objeto. simpl.
  rewrite nth_error_app2 by apply Nat.le_refl. rewrite Nat.sub_diag. simpl.
  unfold ret at 1.
  specialize (IH (pre ++ [objeto_de f])).
  rewrite length_app, Nat.add_1_r, <- app_assoc in IH. simpl in IH.
  rewrite IH. reflexivity.
Qed.

Lemma leer_alumnos_eq (activo : option bool) (bd : Tabla) :
  get_db (leer_alumnos activo) bd
  = (inr (map respuesta
            (filter (por_activo (match activo with Some b => b | None => true end)) bd)),
     bd).
Proof.
  unfold get_db, SessionLocal, leer_alumnos, query_filter_all.
  unfold bind at 1. simpl se_puede_enlazar. cbv iota. simpl tabla at 1. simpl cumple.
  rewrite mapM_cargar. simpl List.length. simpl app.
  pose proof (mapM_response_model
                (filter (por_activo (match activo with Some b => b | None => true end)) bd)
                bd [] []) as H.
  simpl in H. rewrite app_nil_r in H. rewrite H. reflexivity.
Qed.

End Ecuaciones.

Section Resultados.

Context {motor : Motor}.

(** ** The outcomes of create and update *)



Lemma crear_alumno_lleno (alumno : AlumnoCreate.t) (bd : Tabla) :
  en_int64 (AlumnoCreate.semestre alumno) = true ->
  en_int64 (clave_nueva bd) = false ->
  get_db (crear_alumno alumno) bd = (inl OperationalError, bd).
Proof.
  intros Hs Hk. rewrite crear_alumno_eq, (int64_dec_true _ Hs).
  destruct (int64_dec (clave_nueva bd)); [congruence | reflexivity].
Qed.

(** A create that answers has stored the row of its answer, last, under a
    key that was not in use. *)
Lemma crear_alumno_inr (alumno : AlumnoCreate.t) (bd bd' : Tabla) (r : AlumnoResponse.t) :
  get_db (crear_alumno alumno) bd = (inr r, bd') ->
  en_int64 (AlumnoCreate.semestre alumno) = true /\
  en_int64 (clave_nueva bd) = true /\
  r = AlumnoResponse.mk (AlumnoCreate.nombre alumno) (AlumnoCreate.semestre alumno)
                        (AlumnoCreate.activo alumno) (clave_nueva bd) /\
  exists f, bd' = bd ++ [f] /\ respuesta f = r.
Proof.
  rewrite crear_alumno_eq.
  destruct (int64_dec (AlumnoCreate.semestre alumno)) as [Hs|Hs]; [|discriminate].
  destruct (int64_dec (clave_nueva bd)) as [Hk|Hk]; [|discriminate].
  intros H. injection H as <- <-. repeat split; try assumption.
  eexists. split; reflexivity.
Qed.



Lemma leer_alumno_tras_insertar (f : Fila.t) (bd : Tabla) :
  ~ existe (Fila.id f) bd ->
  get_db (leer_alumno (Fila.id f)) (bd ++ [f]) = (inr (respuesta f), bd ++ [f]).
Proof.
  intros H. rewrite leer_alumno_eq, Fila.id_int64.
  now rewrite (find_app_libre _ _ f H eq_refl).
Qed.

(** ** The database after each operation *)

Lemma base_tras_crear (alumno : AlumnoCreate.t) (bd : Tabla) :
  base_tras (Crear alumno) bd
  = match int64_dec (AlumnoCreate.semestre alumno) with
    | left Hs =>
        match int64_dec (clave_nueva bd) with
        | left Hk =>
            bd ++ [Fila.mk (clave_nueva bd) (AlumnoCreate.nombre alumno)
                           (AlumnoCreate.semestre alumno)
                           (AlumnoCreate.activo alumno) Hk Hs]
        | right _ => bd
        end
    | right _ => bd
    end.
Proof.
  simpl. rewrite crear_alumno_eq.
  destruct (int64_dec (AlumnoCreate.semestre alumno)); [|reflexivity].
  now destruct (int64_dec (clave_nueva bd)).
Qed.

Lemma base_tras_leer (alumno_id : Z) (bd : Tabla) : base_tras (Leer alumno_id) bd = bd.
Proof. simpl. now rewrite leer_alumno_eq. Qed.

Lemma base_tras_listar (activo : option bool) (bd : Tabla) :
  base_tras (Listar activo) bd = bd.
Proof. simpl. now rewrite leer_alumnos_eq. Qed.

Lemma base_tras_actualizar (alumno_id : Z) (alumno : AlumnoCreate.t) (bd : Tabla) :
  base_tras (Actualizar alumno_id alumno) bd
  = match int64_dec (AlumnoCreate.semestre alumno) with
    | left Hs =>
        reescribir alumno_id (AlumnoCreate.nombre alumno) (AlumnoCreate.semestre alumno)
                   (AlumnoCreate.activo alumno) Hs bd
    | right _ => bd
    end.
Proof.
  simpl. rewrite actualizar_alumno_eq.
  destruct (en_int64 alumno_id) eqn:Hi.
  - destruct (find (por_id alumno_id) bd) as [f|] eqn:E.
    + now destruct (int64_dec (AlumnoCreate.semestre alumno)).
    + apply find_por_id_None in E.
      destruct (int64_dec (AlumnoCreate.semestre alumno)); [|reflexivity].
      simpl. symmetry. now apply reescribir_inexistente.
  - destruct (int64_dec (AlumnoCreate.semestre alumno)); [|reflexivity].
    simpl. symmetry. apply reescribir_inexistente.
    intros H. apply existe_en_int64 in H. congruence.
Qed.

Lemma base_tras_eliminar (alumno_id : Z) (bd : Tabla) :
  base_tras (Eliminar alumno_id) bd = borrar alumno_id bd.
Proof.
  simpl. rewrite eliminar_alumno_eq.
  destruct (en_int64 alumno_id) eqn:Hi.
  - destruct (find (por_id alumno_id) bd) as [f|] eqn:E; simpl; [reflexivity|].
    symmetry. apply borrar_inexistente. now apply find_por_id_None.
  - simpl. symmetry. apply borrar_inexistente.
    intros H. apply existe_en_int64 in H. congruence.
Qed.

Lemma excepcion_de_crear (alumno : AlumnoCreate.t) (bd : Tabla) :
  excepcion_de (Crear alumno) bd
  = if en_int64 (AlumnoCreate.semestre alumno)
    then if en_int64 (clave_nueva bd) then None else Some OperationalError
    else Some OverflowError.
Proof.
  simpl. rewrite crear_alumno_eq.
  destruct (int64_dec (AlumnoCreate.semestre alumno)) as [Hs|Hs];
    [destruct (int64_dec (clave_nueva bd)) as [Hk|Hk]|]; simpl;
    rewrite ?Hs, ?Hk; reflexivity.
Qed.

Lemma claves_base_tras (op : Operacion) (bd : Tabla) :
  claves (base_tras op bd)
  = match op with
    | Crear _ =>
        match excepcion_de op bd with
        | None => claves bd ++ [clave_nueva bd]
        | Some _ => claves bd
        end
    | Eliminar i => filter (fun k => negb (k =? i)) (claves bd)
    | Leer _ | Listar _ | Actualizar _ _ => claves bd
    end.
Proof.
  destruct op as [a|i|q|i a|i].
  - rewrite excepcion_de_crear, base_tras_crear.
    destruct (int64_dec (AlumnoCreate.semestre a)) as [Hs|Hs];
      [destruct (int64_dec (clave_nueva bd)) as [Hk|Hk]|];
      rewrite ?claves_app; cbn [claves map Fila.id];
      rewrite ?Hs, ?Hk; reflexivity.
  - now rewrite base_tras_leer.
  - now rewrite base_tras_listar.
  - rewrite base_tras_actualizar.
    destruct (int64_dec (AlumnoCreate.semestre a)); [|reflexivity].
    apply claves_reescribir.
  - rewrite base_tras_eliminar. apply claves_borrar.
Qed.

Lemma clave_primaria_base_tras (op : Operacion) (bd : Tabla) :
  clave_primaria bd -> clave_primaria (base_tras op bd).
Proof.
  unfold clave_primaria. intros H. rewrite claves_base_tras.
  destruct op as [a|i|q|i a|i]; try exact H.
  - destruct (excepcion_de (Crear a) bd); [exact H|].
    apply NoDup_app; [exact H | repeat constructor; simpl; tauto |].
    intros k Hk [<-|[]]. exact (clave_nueva_libre bd Hk).
  - now apply NoDup_filter.
Qed.

Lemma existe_base_tras (op : Operacion) (bd : Tabla) (k : Z) :
  existe k bd -> op <> Eliminar k -> existe k (base_tras op bd).
Proof.
  unfold existe. intros H Hop. rewrite claves_base_tras.
  destruct op as [a|i|q|i a|i]; try exact H.
  - destruct (excepcion_de (Crear a) bd); [exact H|].
    apply in_or_app. now left.
  - apply filter_In. split; [exact H|].
    destruct (k =? i) eqn:E; [|reflexivity].
    apply Z.eqb_eq in E. subst. now contradiction Hop.
Qed.

Lemma clave_primaria_ejecutar (ops : list Operacion) (bd : Tabla) :
  clave_primaria bd -> clave_primaria (ejecutar ops bd).
Proof.
  revert bd. induction ops as [|op ops IH]; intros bd H; simpl; [exact H|].
  apply IH. now apply clave_primaria_base_tras.
Qed.

Lemma existe_ejecutar (ops : list Operacion) (bd : Tabla) (k : Z) :
  existe k bd -> ~ In (Eliminar k) ops -> existe k (ejecutar ops bd).
Proof.
  revert bd. induction ops as [|op ops IH]; intros bd H Hno; simpl; [exact H|].
  apply IH.
  - apply existe_base_tras; [exact H|]. intros ->. apply Hno. now left.
  - intros Hin. apply Hno. now right.
Qed.

End Resultados.

(** ** Runs on a SQLite database *)

Example crear_en_vacia :
  get_db (crear_alumno (AlumnoCreate.init "Ana" 3 None)) []
  = (inr (AlumnoResponse.mk "Ana" 3 true 1), [fila! 1 "Ana" 3 true]).
Proof. reflexivity. Qed.

Example crear_en_ejemplo :
  get_db (crear_alumno (AlumnoCreate.mk "" (-2) false)) bd_ejemplo
  = (inr (AlumnoResponse.mk "" (-2) false 5), bd_ejemplo ++ [fila! 5 "" (-2) false]).
Proof. reflexivity. Qed.

Example crear_semestre_fuera_de_rango :
  get_db (crear_alumno (AlumnoCreate.mk "Ana" fuera_de_rango true)) bd_ejemplo
  = (inl OverflowError, bd_ejemplo).
Proof. reflexivity. Qed.

Example leer_inexistente :
  get_db (leer_alumno 999999) [] = (inl (HTTPException 404 "Alumno no encontrado"), []).
Proof. reflexivity. Qed.

Example leer_existente :
  get_db (leer_alumno 2) bd_ejemplo = (inr (AlumnoResponse.mk "Luis" 5 false 2), bd_ejemplo).
Proof. reflexivity. Qed.

Example leer_id_fuera_de_rango :
  get_db (leer_alumno fuera_de_rango) bd_ejemplo = (inl OverflowError, bd_ejemplo).
Proof. reflexivity. Qed.

Example listar_sin_filtro :
  get_db (leer_alumnos None) bd_ejemplo
  = (inr [AlumnoResponse.mk "Ana" 3 true 1; AlumnoResponse.mk "Eva" 1 true 4], bd_ejemplo).
Proof. reflexivity. Qed.

Example listar_inactivos :
  get_db (leer_alumnos (Some false)) bd_ejemplo
  = (inr [AlumnoResponse.mk "Luis" 5 false 2], bd_ejemplo).
Proof. reflexivity. Qed.

Example actualizar_existente :
  get_db (actualizar_alumno 2 (AlumnoCreate.mk "Luis" 6 true)) bd_ejemplo
  = (inr (AlumnoResponse.mk "Luis" 6 true 2),
     [fila! 1 "Ana" 3 true; fila! 2 "Luis" 6 true; fila! 4 "Eva" 1 true]).
Proof. reflexivity. Qed.

Example actualizar_semestre_fuera_de_rango :
  get_db (actualizar_alumno 2 (AlumnoCreate.mk "Luis" fuera_de_rango true)) bd_ejemplo
  = (inl OverflowError, bd_ejemplo).
Proof. reflexivity. Qed.

Example eliminar_existente :
  get_db (eliminar_alumno 2) bd_ejemplo
  = (inr [("detail", "Alumno eliminado")],
     [fila! 1 "Ana" 3 true; fila! 4 "Eva" 1 true]).
Proof. reflexivity. Qed.

Example eliminar_dos_veces :
  get_db (eliminar_alumno 2) (ejecutar [Eliminar 2] bd_ejemplo)
  = (inl (HTTPException 404 "Alumno no encontrado"),
     [fila! 1 "Ana" 3 true; fila! 4 "Eva" 1 true]).
Proof. reflexivity. Qed.

(** ** The properties of the specification *)

Section Propiedades.

Context {motor : Motor}.



(** C3. Deleting an [id] that has a row answers with the confirmation and
    leaves a database with no row of that [id]; on that database
    [leer_alumno] of the [id] raises 404, and a second [eliminar_alumno] of
    the [id] raises 404 too and leaves the database as the first delete left
    it. *)
Theorem eliminar_existente_y_repetir (alumno_id : Z) (bd : Tabla) :
  existe alumno_id bd ->
  exists bd1 : Tabla,
    get_db (eliminar_alumno alumno_id) bd = (inr [("detail", "Alumno eliminado")], bd1) /\
    ~ existe alumno_id bd1 /\
    get_db (leer_alumno alumno_id) bd1
    = (inl (HTTPException 404 "Alumno no encontrado"), bd1) /\
    get_db (eliminar_alumno alumno_id) bd1
    = (inl (HTTPException 404 "Alumno no encontrado"), bd1) /\
    ejecutar [Eliminar alumno_id; Eliminar alumno_id] bd = ejecutar [Eliminar alumno_id] bd.
Proof.
  intros H. destruct (existe_find _ _ H) as [f Hf].
  pose proof (existe_en_int64 _ _ H) as Hi.
  pose proof (no_existe_borrar alumno_id bd) as Hno.
  pose proof Hno as Hnone. apply find_por_id_None in Hnone.
  assert (E1 : get_db (eliminar_alumno alumno_id) bd
               = (inr [("detail", "Alumno eliminado")], borrar alumno_id bd))
    by (rewrite eliminar_alumno_eq, Hi; now rewrite Hf).
  assert (E2 : get_db (eliminar_alumno alumno_id) (borrar alumno_id bd)
               = (inl no_encontrado, borrar alumno_id bd))
    by (rewrite eliminar_alumno_eq, Hi; now rewrite Hnone).
  exists (borrar alumno_id bd).
  split; [exact E1|]. split; [exact Hno|].
  split; [rewrite leer_alumno_eq, Hi; now rewrite Hnone|].
  split; [exact E2|].
  unfold ejecutar; simpl. rewrite E1. simpl. now rewrite E2.
Qed.

(** C4. [leer_alumnos] never raises and leaves the database as it was.  With
    filter [b] it answers with the rows whose [activo] is [b], each once and
    in table order: a record is in the answer exactly when it is the record of
    such a row; the answer is the empty list when there is none.  A request
    without the parameter is answered as the request with [activo = True]. *)
Theorem listar_filtra (b : bool) (bd : Tabla) :
  exists rs : list AlumnoResponse.t,
    get_db (leer_alumnos (Some b)) bd = (inr rs, bd) /\
    rs = map respuesta (filter (fun f => Bool.eqb (Fila.activo f) b) bd) /\
    (forall r, In r rs <-> exists f, In f bd /\ Fila.activo f = b /\ r = respuesta f) /\
    ((forall f, In f bd -> Fila.activo f <> b) -> rs = []) /\
    get_db (leer_alumnos None) bd = get_db (leer_alumnos (Some true)) bd.
Proof.
  eexists. split; [apply leer_alumnos_eq|].
  split; [reflexivity|]. split; [|split].
  - intros r. rewrite in_map_iff. split.
    + intros (f & <- & Hin). apply filter_In in Hin. destruct Hin as [Hin Hb].
      exists f. unfold por_activo in Hb. apply eqb_prop in Hb. auto.
    + intros (f & Hin & Hb & ->). exists f. split; [reflexivity|].
      apply filter_In. split; [exact Hin|]. unfold por_activo. rewrite Hb.
      apply eqb_reflx.
  - intros Hnone.
    assert (E : filter (por_activo b) bd = []).
    { induction bd as [|f t IH]; simpl; [reflexivity|].
      destruct (por_activo b f) eqn:Hb.
      - exfalso. apply (Hnone f); [now left|]. now apply eqb_prop.
      - apply IH. intros g Hg. apply Hnone. now right. }
    now rewrite E.
  - now rewrite !leer_alumnos_eq.
Qed.




(** C8. Under the primary-key constraint, every operation leaves a database
    that satisfies it (no [id] in two rows).  The keys of the rows change in
    two ways only: a create that ends normally appends the engine's new key,
    and a delete takes out the key it was asked to delete; a create that
    raises, a get-one, a list and an update leave the key of every row as it
    is.  So over any sequence of requests a row's [id], once present, stays
    present as long as no delete of that [id] is among them. *)
Theorem invariante_de_claves (bd : Tabla) :
  clave_primaria bd ->
  (forall op : Operacion,
      clave_primaria (base_tras op bd) /\
      claves (base_tras op bd)
      = match op with
        | Crear _ =>
            match excepcion_de op bd with
            | None => claves bd ++ [clave_nueva bd]
            | Some _ => claves bd
            end
        | Eliminar i => filter (fun k => negb (k =? i)) (claves bd)
        | Leer _ | Listar _ | Actualizar _ _ => claves bd
        end) /\
  (forall ops : list Operacion,
      clave_primaria (ejecutar ops bd) /\
      forall k : Z, existe k bd -> ~ In (Eliminar k) ops -> existe k (ejecutar ops bd)).
Proof.
  intros H. split.
  - intros op. split; [now apply clave_primaria_base_tras | apply claves_base_tras].
  - intros ops. split; [now apply clave_primaria_ejecutar|].
    intros k. apply existe_ejecutar.
Qed.

(** C9. Frame.  A create leaves the table as it was, with one row appended
    when it ends normally: the row of its answer, whose key no earlier row
    has.  An update leaves the number of rows and, at every position, a row
    whose [id] is not the requested one exactly as it was.  A delete leaves
    the rows whose [id] is not the requested one, all of them, in their
    order, exactly as they were. *)
Theorem marco (bd : Tabla) :
  (forall alumno : AlumnoCreate.t,
      match fst (get_db (crear_alumno alumno) bd) with
      | inr r =>
          exists f, base_tras (Crear alumno) bd = bd ++ [f] /\ respuesta f = r /\
                    ~ existe (Fila.id f) bd
      | inl _ => base_tras (Crear alumno) bd = bd
      end) /\
  (forall (alumno_id : Z) (alumno : AlumnoCreate.t),
      List.length (base_tras (Actualizar alumno_id alumno) bd) = List.length bd /\
      forall (n : nat) (f : Fila.t),
        nth_error bd n = Some f -> Fila.id f <> alumno_id ->
        nth_error (base_tras (Actualizar alumno_id alumno) bd) n = Some f) /\
  (forall alumno_id : Z,
      base_tras (Eliminar alumno_id) bd
      = filter (fun f => negb (Fila.id f =? alumno_id)) bd).
Proof.
  split; [|split].
  - intros alumno. simpl. rewrite crear_alumno_eq.
    destruct (int64_dec (AlumnoCreate.semestre alumno)) as [Hs|Hs]; [|reflexivity].
    destruct (int64_dec (clave_nueva bd)) as [Hk|Hk]; [|reflexivity].
    simpl. eexists. split; [reflexivity|]. split; [reflexivity|].
    apply clave_nueva_libre.
  - intros i alumno. rewrite base_tras_actualizar.
    destruct (int64_dec (AlumnoCreate.semestre alumno)) as [Hs|Hs]; [|split; auto].
    unfold reescribir. split; [apply length_map|].
    intros n f Hn Hid. rewrite nth_error_map, Hn. simpl.
    now rewrite (proj2 (por_id_false i f) Hid).
  - intros i. apply base_tras_eliminar.
Qed.


End Propiedades.

(** ** How the requests compose *)

Lemma existeb_spec (i : Z) (t : Tabla) : existeb i t = true <-> existe i t.
Proof.
  unfold existeb, existe. rewrite existsb_exists. split.
  - intros (k & Hk & E). apply Z.eqb_eq in E. now subst.
  - intros H. exists i. split; [exact H | apply Z.eqb_refl].
Qed.

Lemma find_existeb {A : Type} (i : Z) (t : Tabla) (x : A) (y : A) :
  match find (por_id i) t with Some _ => x | None => y end
  = if existeb i t then x else y.
Proof.
  destruct (find (por_id i) t) as [f|] eqn:E.
  - apply find_por_id_existe, existeb_spec in E. now rewrite E.
  - apply find_por_id_None in E. destruct (existeb i t) eqn:Eb; [|reflexivity].
    apply existeb_spec in Eb. contradiction.
Qed.

Lemma existeb_misma_existencia (i : Z) (t u : Tabla) :
  (existe i t <-> existe i u) -> existeb i t = existeb i u.
Proof.
  intros H. destruct (existeb i t) eqn:Et, (existeb i u) eqn:Eu; try reflexivity.
  - apply existeb_spec, H, existeb_spec in Et. congruence.
  - apply existeb_spec, H, existeb_spec in Eu. congruence.
Qed.


Lemma reescribir_conmuta (i j : Z) (n n' : string) (s s' : Z) (a a' : bool)
      (Hs : en_int64 s = true) (Hs' : en_int64 s' = true) (t : Tabla) :
  i <> j ->
  reescribir j n' s' a' Hs' (reescribir i n s a Hs t)
  = reescribir i n s a Hs (reescribir j n' s' a' Hs' t).
Proof.
  intros Hij. unfold reescribir. rewrite !map_map. apply map_ext. intros f. cbv beta.
  assert (Ki : forall g m z b (H : en_int64 z = true),
             por_id i (Fila.con g m z b H) = por_id i g) by reflexivity.
  assert (Kj : forall g m z b (H : en_int64 z = true),
             por_id j (Fila.con g m z b H) = por_id j g) by reflexivity.
  destruct (por_id i f) eqn:Ei, (por_id j f) eqn:Ej; rewrite ?Ki, ?Kj, ?Ei, ?Ej;
    try reflexivity.
  apply por_id_true in Ei, Ej. congruence.
Qed.

Lemma borrar_conmuta (i j : Z) (t : Tabla) :
  borrar i (borrar j t) = borrar j (borrar i t).
Proof.
  unfold borrar. induction t as [|f t IH]; simpl; [reflexivity|].
  destruct (por_id i f) eqn:Ei, (por_id j f) eqn:Ej; simpl;
    rewrite ?Ei, ?Ej; simpl; now rewrite IH.
Qed.

Lemma borrar_reescribir_otro (i j : Z) (n : string) (s : Z) (a : bool)
      (Hs : en_int64 s = true) (t : Tabla) :
  borrar j (reescribir i n s a Hs t) = reescribir i n s a Hs (borrar j t).
Proof.
  unfold borrar, reescribir. induction t as [|f t IH]; simpl; [reflexivity|].
  assert (Kj : por_id j (Fila.con f n s a Hs) = por_id j f) by reflexivity.
  destruct (por_id i f) eqn:Ei; rewrite ?Kj; destruct (por_id j f) eqn:Ej; simpl;
    rewrite ?Ei; now rewrite IH.
Qed.

Lemma borrar_reescribir_mismo (i : Z) (n : string) (s : Z) (a : bool)
      (Hs : en_int64 s = true) (t : Tabla) :
  borrar i (reescribir i n s a Hs t) = borrar i t.
Proof.
  unfold borrar, reescribir. induction t as [|f t IH]; simpl; [reflexivity|].
  assert (Ki : por_id i (Fila.con f n s a Hs) = por_id i f) by reflexivity.
  destruct (por_id i f) eqn:Ei; rewrite ?Ki, ?Ei; simpl; now rewrite IH.
Qed.

Lemma borrar_app_libre (k : Z) (f : Fila.t) (t : Tabla) :
  ~ existe k t -> Fila.id f = k -> borrar k (t ++ [f]) = t.
Proof.
  intros Hk Hf. unfold borrar. rewrite filter_app. simpl.
  rewrite (proj2 (por_id_true k f) Hf). simpl. rewrite app_nil_r.
  now apply borrar_inexistente.
Qed.

Lemma length_borrar (i : Z) (t : Tabla) :
  clave_primaria t -> existe i t -> S (List.length (borrar i t)) = List.length t.
Proof.
  unfold clave_primaria, existe, claves.
  induction t as [|f t IH]; simpl; [tauto|].
  intros Hnd Hin. inversion Hnd as [|? ? Hnotin Hnd']; subst.
  unfold borrar. simpl. destruct (por_id i f) eqn:E; simpl.
  - apply por_id_true in E. subst i. f_equal.
    change (List.length (borrar (Fila.id f) t) = List.length t).
    now rewrite borrar_inexistente.
  - apply por_id_false in E. destruct Hin as [Hin|Hin]; [contradiction|].
    f_equal. now apply IH.
Qed.

Lemma filter_por_activo_particion (t : Tabla) :
  Permutation (filter (por_activo true) t ++ filter (por_activo false) t) t.
Proof.
  induction t as [|f t IH]; simpl; [constructor|].
  assert (Ht : por_activo true f = Fila.activo f)
    by (unfold por_activo; now destruct (Fila.activo f)).
  assert (Hf : por_activo false f = negb (Fila.activo f))
    by (unfold por_activo; now destruct (Fila.activo f)).
  rewrite Ht, Hf. destruct (Fila.activo f); simpl.
  - apply perm_skip. exact IH.
  - apply Permutation_sym, Permutation_cons_app, Permutation_sym. exact IH.
Qed.

Lemma listado_sin_id (i : Z) (p : Fila.t -> bool) (t : Tabla) :
  map respuesta (filter p (borrar i t))
  = filter (fun r => negb (AlumnoResponse.id r =? i)) (map respuesta (filter p t)).
Proof.
  unfold borrar, por_id. induction t as [|f t IH]; simpl; [reflexivity|].
  destruct (Fila.id f =? i) eqn:Ei; simpl.
  - destruct (p f); simpl; [rewrite Ei; simpl|]; exact IH.
  - destruct (p f); simpl; [rewrite Ei; simpl; f_equal|]; exact IH.
Qed.

Section Composicion.

Context {motor : Motor}.

Lemma existe_tras_actualizar (i k : Z) (a : AlumnoCreate.t) (bd : Tabla) :
  existe k (base_tras (Actualizar i a) bd) <-> existe k bd.
Proof. unfold existe. now rewrite claves_base_tras. Qed.

Lemma no_existe_tras_eliminar (i : Z) (bd : Tabla) :
  ~ existe i (base_tras (Eliminar i) bd).
Proof. rewrite base_tras_eliminar. apply no_existe_borrar. Qed.


Lemma fst_eliminar_alumno (i : Z) (bd : Tabla) :
  fst (get_db (eliminar_alumno i) bd)
  = if en_int64 i
    then if existeb i bd then inr [("detail", "Alumno eliminado")] else inl no_encontrado
    else inl OverflowError.
Proof.
  rewrite eliminar_alumno_eq. destruct (en_int64 i); [|reflexivity].
  rewrite <- find_existeb. now destruct (find (por_id i) bd).
Qed.



(** X2. When a create answers with a record, a delete of that record's [id]
    right after ends with the confirmation and the database is again the one
    before the create. *)
Theorem crear_luego_eliminar (alumno : AlumnoCreate.t) (bd bd' : Tabla)
        (r : AlumnoResponse.t) :
  get_db (crear_alumno alumno) bd = (inr r, bd') ->
  get_db (eliminar_alumno (AlumnoResponse.id r)) bd'
  = (inr [("detail", "Alumno eliminado")], bd).
Proof.
  intros H. apply crear_alumno_inr in H.
  destruct H as (_ & Hk & -> & f & -> & Hf). simpl.
  assert (Hid : Fila.id f = clave_nueva bd)
    by (unfold respuesta in Hf; now injection Hf).
  rewrite eliminar_alumno_eq, Hk.
  rewrite (find_app_libre _ _ f (clave_nueva_libre bd) Hid).
  now rewrite (borrar_app_libre _ f _ (clave_nueva_libre bd) Hid).
Qed.


(** X4. Requests about different ids commute: two updates, two deletes, or
    an update and a delete leave the same database in either order. *)
Theorem distintos_ids_conmutan (i j : Z) (a b : AlumnoCreate.t) (bd : Tabla) :
  i <> j ->
  ejecutar [Actualizar i a; Actualizar j b] bd = ejecutar [Actualizar j b; Actualizar i a] bd /\
  ejecutar [Eliminar i; Eliminar j] bd = ejecutar [Eliminar j; Eliminar i] bd /\
  ejecutar [Actualizar i a; Eliminar j] bd = ejecutar [Eliminar j; Actualizar i a] bd.
Proof.
  intros Hij. unfold ejecutar, fold_left.
  rewrite !base_tras_actualizar, !base_tras_eliminar.
  destruct (int64_dec (AlumnoCreate.semestre a)) as [Ha|Ha],
           (int64_dec (AlumnoCreate.semestre b)) as [Hb|Hb];
    repeat split; try reflexivity;
    try (now apply reescribir_conmuta);
    try apply borrar_conmuta; try apply borrar_reescribir_otro.
Qed.

(** X5. A delete answers the same and leaves the same database whether or
    not an update of that [id] came just before it; and right after a delete
    of an [id], an update of it raises (404, or [OverflowError] when the [id]
    is not a 64-bit integer) and changes nothing. *)
Theorem actualizar_y_eliminar (alumno_id : Z) (a : AlumnoCreate.t) (bd : Tabla) :
  get_db (eliminar_alumno alumno_id) (base_tras (Actualizar alumno_id a) bd)
  = get_db (eliminar_alumno alumno_id) bd /\
  get_db (actualizar_alumno alumno_id a) (base_tras (Eliminar alumno_id) bd)
  = (inl (if en_int64 alumno_id
          then HTTPException 404 "Alumno no encontrado"
          else OverflowError), base_tras (Eliminar alumno_id) bd).
Proof.
  split.
  - apply injective_projections.
    + rewrite !fst_eliminar_alumno.
      now rewrite (existeb_misma_existencia _ _ _ (existe_tras_actualizar _ _ a bd)).
    + change (base_tras (Eliminar alumno_id) (base_tras (Actualizar alumno_id a) bd)
              = base_tras (Eliminar alumno_id) bd).
      rewrite !base_tras_eliminar, base_tras_actualizar.
      destruct (int64_dec (AlumnoCreate.semestre a)); [|reflexivity].
      apply borrar_reescribir_mismo.
  - rewrite actualizar_alumno_eq.
    pose proof (no_existe_tras_eliminar alumno_id bd) as H.
    apply find_por_id_None in H. rewrite H.
    now destruct (en_int64 alumno_id).
Qed.

End Composicion.

(** ** The listings and the other handlers *)

Section Listados.

Context {motor : Motor}.

(** X6. The listing of the active and the listing of the inactive records
    together are the whole table, each row once: put one after the other they
    are a permutation of the records of all rows, and their lengths add up to
    the number of rows. *)
Theorem listados_particion (bd : Tabla) :
  exists ra ri : list AlumnoResponse.t,
    get_db (leer_alumnos (Some true)) bd = (inr ra, bd) /\
    get_db (leer_alumnos (Some false)) bd = (inr ri, bd) /\
    Permutation (ra ++ ri) (map respuesta bd) /\
    (List.length ra + List.length ri)%nat = List.length bd.
Proof.
  do 2 eexists. split; [apply leer_alumnos_eq|]. split; [apply leer_alumnos_eq|].
  assert (P : Permutation
                (map respuesta (filter (por_activo true) bd)
                 ++ map respuesta (filter (por_activo false) bd))
                (map respuesta bd)).
  { rewrite <- map_app. apply Permutation_map, filter_por_activo_particion. }
  split; [exact P|].
  apply Permutation_length in P. rewrite length_app in P.
  rewrite P. apply length_map.
Qed.

(** X7. The listings and get-one agree.  Under the primary-key constraint,
    get-one on the [id] of a listed record answers exactly that record; and a
    record that get-one answers is in the listing of its own [activo]. *)
Theorem listado_y_leer (activo : option bool) (bd : Tabla) :
  clave_primaria bd ->
  exists rs : list AlumnoResponse.t,
    get_db (leer_alumnos activo) bd = (inr rs, bd) /\
    (forall r, In r rs -> get_db (leer_alumno (AlumnoResponse.id r)) bd = (inr r, bd)) /\
    (forall (i : Z) (r : AlumnoResponse.t),
        get_db (leer_alumno i) bd = (inr r, bd) ->
        exists rs', get_db (leer_alumnos (Some (AlumnoResponse.activo r))) bd = (inr rs', bd)
                    /\ In r rs').
Proof.
  intros Hpk. eexists. split; [apply leer_alumnos_eq|]. split.
  - intros r Hr. apply in_map_iff in Hr. destruct Hr as (f & <- & Hf).
    apply filter_In in Hf. destruct Hf as [Hf _].
    rewrite leer_alumno_eq. simpl. rewrite Fila.id_int64.
    now rewrite (find_por_id_unica (Fila.id f) bd f Hpk Hf eq_refl).
  - intros i r Hr. rewrite leer_alumno_eq in Hr.
    destruct (en_int64 i); [|discriminate].
    destruct (find (por_id i) bd) as [f|] eqn:E; [|discriminate].
    injection Hr as <-. destruct (find_por_id_Some _ _ _ E) as [Hin _].
    eexists. split; [apply leer_alumnos_eq|].
    apply in_map. apply filter_In. split; [exact Hin|].
    unfold por_activo. simpl. apply eqb_reflx.
Qed.

(** X8. A create that ends normally adds exactly one row, and one that raises
    adds none, whatever the table.  Under the primary-key constraint a delete
    of an [id] that has a row removes exactly one row. *)
Theorem cuenta_de_filas (alumno_id : Z) (alumno : AlumnoCreate.t) (bd : Tabla) :
  List.length (base_tras (Crear alumno) bd)
  = match excepcion_de (Crear alumno) bd with
    | None => S (List.length bd)
    | Some _ => List.length bd
    end /\
  (clave_primaria bd -> existe alumno_id bd ->
   S (List.length (base_tras (Eliminar alumno_id) bd)) = List.length bd).
Proof.
  split.
  - rewrite excepcion_de_crear, base_tras_crear.
    destruct (int64_dec (AlumnoCreate.semestre alumno)) as [Hs|Hs];
      [destruct (int64_dec (clave_nueva bd)) as [Hk|Hk]|];
      rewrite ?length_app; cbn [List.length];
      rewrite ?Hs, ?Hk, ?Nat.add_1_r; reflexivity.
  - intros Hpk Hex. rewrite base_tras_eliminar. now apply length_borrar.
Qed.

(** X9. After a create that answers with a record, the listing for the new
    record's [activo] is the listing before followed by the new record, and
    the listing for the other value is the listing before; after a create
    that raises, both listings are as before. *)
Theorem listado_tras_crear (alumno : AlumnoCreate.t) (b : bool) (bd : Tabla) :
  exists rs : list AlumnoResponse.t,
    get_db (leer_alumnos (Some b)) bd = (inr rs, bd) /\
    get_db (leer_alumnos (Some b)) (base_tras (Crear alumno) bd)
    = (inr (match fst (get_db (crear_alumno alumno) bd) with
            | inr r => if Bool.eqb (AlumnoCreate.activo alumno) b then rs ++ [r] else rs
            | inl _ => rs
            end),
       base_tras (Crear alumno) bd).
Proof.
  eexists. split; [apply leer_alumnos_eq|].
  rewrite leer_alumnos_eq, base_tras_crear, crear_alumno_eq.
  destruct (int64_dec (AlumnoCreate.semestre alumno)) as [Hs|Hs]; [|reflexivity].
  destruct (int64_dec (clave_nueva bd)) as [Hk|Hk]; [|reflexivity].
  rewrite filter_app, map_app. simpl.
  unfold por_activo at 2. simpl.
  destruct (Bool.eqb (AlumnoCreate.activo alumno) b); simpl; [reflexivity|].
  now rewrite app_nil_r.
Qed.


(** X11. What get-one answers for an [id] is not changed by a request about
    another [id]: after any operation whose [id] (for a create, the new key)
    is not [j], get-one on [j] answers as it did before. *)
Theorem leer_otro_id (op : Operacion) (j : Z) (bd : Tabla) :
  id_de op bd <> Some j ->
  get_db (leer_alumno j) (base_tras op bd)
  = (fst (get_db (leer_alumno j) bd), base_tras op bd).
Proof.
  intros H. rewrite !leer_alumno_eq. simpl fst. f_equal.
  assert (E : find (por_id j) (base_tras op bd) = find (por_id j) bd);
    [|now rewrite E].
  destruct op as [a|i|q|i a|i]; simpl in H.
  - rewrite base_tras_crear.
    destruct (int64_dec (AlumnoCreate.semestre a)) as [Hs|Hs]; [|reflexivity].
    destruct (int64_dec (clave_nueva bd)) as [Hk|Hk]; [|reflexivity].
    apply find_app_otro. simpl. congruence.
  - now rewrite base_tras_leer.
  - now rewrite base_tras_listar.
  - rewrite base_tras_actualizar.
    destruct (int64_dec (AlumnoCreate.semestre a)) as [Hs|Hs]; [|reflexivity].
    apply find_reescribir_otro. congruence.
  - rewrite base_tras_eliminar. apply find_borrar_otro. congruence.
Qed.

(** X12. After a delete, every listing is the listing before without the
    records of the deleted [id], the others in their order. *)
Theorem listado_tras_eliminar (alumno_id : Z) (activo : option bool) (bd : Tabla) :
  exists rs : list AlumnoResponse.t,
    get_db (leer_alumnos activo) bd = (inr rs, bd) /\
    get_db (leer_alumnos activo) (base_tras (Eliminar alumno_id) bd)
    = (inr (filter (fun r => negb (AlumnoResponse.id r =? alumno_id)) rs),
       base_tras (Eliminar alumno_id) bd).
Proof.
  eexists. split; [apply leer_alumnos_eq|].
  rewrite leer_alumnos_eq, base_tras_eliminar. now rewrite listado_sin_id.
Qed.

(** X13. Round trip without conditions on the input: whenever a create
    answers with a record, get-one on that record's [id], on the database the
    create left, answers with exactly that record, and the record carries the
    body's three fields and a key no earlier row had. *)
Theorem crear_responde_y_leer (alumno : AlumnoCreate.t) (bd bd' : Tabla)
        (r : AlumnoResponse.t) :
  get_db (crear_alumno alumno) bd = (inr r, bd') ->
  get_db (leer_alumno (AlumnoResponse.id r)) bd' = (inr r, bd') /\
  r = AlumnoResponse.mk (AlumnoCreate.nombre alumno) (AlumnoCreate.semestre alumno)
                        (AlumnoCreate.activo alumno) (AlumnoResponse.id r) /\
  ~ existe (AlumnoResponse.id r) bd.
Proof.
  intros H. apply crear_alumno_inr in H.
  destruct H as (_ & _ & Hr & f & -> & Hf).
  assert (Hid : Fila.id f = clave_nueva bd)
    by (rewrite Hr in Hf; unfold respuesta in Hf; now injection Hf).
  split; [|split].
  - rewrite <- Hf. simpl AlumnoResponse.id. apply leer_alumno_tras_insertar.
    rewrite Hid. apply clave_nueva_libre.
  - now rewrite Hr.
  - rewrite Hr. simpl. apply clave_nueva_libre.
Qed.

End Listados.

(** ** Integers outside the 64-bit range, on the SQLite database *)







(** ** Instances of the properties on the SQLite database *)

Lemma clave_primaria_bd_ejemplo : clave_primaria bd_ejemplo.
Proof.
  unfold clave_primaria, bd_ejemplo, claves; simpl.
  repeat constructor; simpl; intuition discriminate.
Defined.

Lemma existe_2_bd_ejemplo : existe 2 bd_ejemplo.
Proof. unfold existe, bd_ejemplo, claves; simpl; auto. Defined.



Lemma eliminar_existente_y_repetir_witness :
  existe 2 bd_ejemplo /\
  exists bd1 : Tabla,
    get_db (eliminar_alumno 2) bd_ejemplo = (inr [("detail", "Alumno eliminado")], bd1) /\
    ~ existe 2 bd1 /\
    get_db (leer_alumno 2) bd1 = (inl (HTTPException 404 "Alumno no encontrado"), bd1) /\
    get_db (eliminar_alumno 2) bd1 = (inl (HTTPException 404 "Alumno no encontrado"), bd1) /\
    ejecutar [Eliminar 2; Eliminar 2] bd_ejemplo = ejecutar [Eliminar 2] bd_ejemplo.
Proof.
  split; [exact existe_2_bd_ejemplo|].
  exact (@eliminar_existente_y_repetir sqlite 2 bd_ejemplo existe_2_bd_ejemplo).
Defined.




Lemma invariante_de_claves_witness :
  clave_primaria bd_ejemplo /\
  clave_primaria
    (ejecutar [Crear (AlumnoCreate.mk "Sol" 2 true); Eliminar 2;
               Actualizar 4 (AlumnoCreate.mk "Eva" 2 false); Listar None; Leer 1]
              bd_ejemplo) /\
  existe 4
    (ejecutar [Crear (AlumnoCreate.mk "Sol" 2 true); Eliminar 2;
               Actualizar 4 (AlumnoCreate.mk "Eva" 2 false); Listar None; Leer 1]
              bd_ejemplo).
Proof.
  split; [exact clave_primaria_bd_ejemplo|].
  pose proof (proj2 (@invariante_de_claves sqlite bd_ejemplo clave_primaria_bd_ejemplo)
                    [Crear (AlumnoCreate.mk "Sol" 2 true); Eliminar 2;
                     Actualizar 4 (AlumnoCreate.mk "Eva" 2 false); Listar None; Leer 1])
    as [Hpk Hex].
  split; [exact Hpk|].
  apply Hex.
  - unfold existe, bd_ejemplo, claves; simpl; auto.
  - simpl. intuition discriminate.
Defined.


(** ** Instances of the composition properties on the SQLite database *)

Lemma crear_luego_eliminar_witness :
  get_db (crear_alumno (AlumnoCreate.mk "Sol" 2 true)) bd_ejemplo
  = (inr (AlumnoResponse.mk "Sol" 2 true 5), bd_ejemplo ++ [fila! 5 "Sol" 2 true]) /\
  get_db (eliminar_alumno 5) (bd_ejemplo ++ [fila! 5 "Sol" 2 true])
  = (inr [("detail", "Alumno eliminado")], bd_ejemplo).
Proof.
  assert (H : get_db (crear_alumno (AlumnoCreate.mk "Sol" 2 true)) bd_ejemplo
              = (inr (AlumnoResponse.mk "Sol" 2 true 5),
                 bd_ejemplo ++ [fila! 5 "Sol" 2 true])) by reflexivity.
  split; [exact H|].
  exact (@crear_luego_eliminar sqlite _ _ _ _ H).
Defined.


Lemma distintos_ids_conmutan_witness :
  2 <> 4 /\
  ejecutar [Actualizar 2 (AlumnoCreate.mk "Luis" 6 true); Eliminar 4] bd_ejemplo
  = ejecutar [Eliminar 4; Actualizar 2 (AlumnoCreate.mk "Luis" 6 true)] bd_ejemplo.
Proof.
  assert (H : 2 <> 4) by discriminate.
  split; [exact H|].
  exact (proj2 (proj2 (@distintos_ids_conmutan sqlite 2 4
                         (AlumnoCreate.mk "Luis" 6 true) (AlumnoCreate.mk "Eva" 1 true)
                         bd_ejemplo H))).
Defined.

Lemma listado_y_leer_witness :
  clave_primaria bd_ejemplo /\
  exists rs : list AlumnoResponse.t,
    get_db (leer_alumnos None) bd_ejemplo = (inr rs, bd_ejemplo) /\
    forall r, In r rs -> get_db (leer_alumno (AlumnoResponse.id r)) bd_ejemplo
                         = (inr r, bd_ejemplo).
Proof.
  split; [exact clave_primaria_bd_ejemplo|].
  destruct (@listado_y_leer None bd_ejemplo clave_primaria_bd_ejemplo)
    as (rs & E & Hrs & _).
  exists rs. split; [exact E | exact Hrs].
Defined.

Lemma cuenta_de_filas_witness :
  clave_primaria bd_ejemplo /\ existe 2 bd_ejemplo /\
  S (List.length (base_tras (Eliminar 2) bd_ejemplo)) = List.length bd_ejemplo.
Proof.
  split; [exact clave_primaria_bd_ejemplo|]. split; [exact existe_2_bd_ejemplo|].
  exact (proj2 (@cuenta_de_filas sqlite 2 (AlumnoCreate.mk "Sol" 2 true) bd_ejemplo)
               clave_primaria_bd_ejemplo existe_2_bd_ejemplo).
Defined.


Lemma leer_otro_id_witness :
  id_de (Crear (AlumnoCreate.mk "Sol" 2 true)) bd_ejemplo <> Some 4 /\
  get_db (leer_alumno 4) (base_tras (Crear (AlumnoCreate.mk "Sol" 2 true)) bd_ejemplo)
  = (fst (get_db (leer_alumno 4) bd_ejemplo),
     base_tras (Crear (AlumnoCreate.mk "Sol" 2 true)) bd_ejemplo).
Proof.
  assert (H : id_de (Crear (AlumnoCreate.mk "Sol" 2 true)) bd_ejemplo <> Some 4)
    by (vm_compute; discriminate).
  split; [exact H|].
  exact (@leer_otro_id sqlite (Crear (AlumnoCreate.mk "Sol" 2 true)) 4 bd_ejemplo H).
Defined.

Lemma crear_responde_y_leer_witness :
  get_db (crear_alumno (AlumnoCreate.mk "Sol" 2 true)) bd_ejemplo
  = (inr (AlumnoResponse.mk "Sol" 2 true 5), bd_ejemplo ++ [fila! 5 "Sol" 2 true]) /\
  get_db (leer_alumno 5) (bd_ejemplo ++ [fila! 5 "Sol" 2 true])
  = (inr (AlumnoResponse.mk "Sol" 2 true 5), bd_ejemplo ++ [fila! 5 "Sol" 2 true]).
Proof.
  assert (H : get_db (crear_alumno (AlumnoCreate.mk "Sol" 2 true)) bd_ejemplo
              = (inr (AlumnoResponse.mk "Sol" 2 true 5),
                 bd_ejemplo ++ [fila! 5 "Sol" 2 true])) by reflexivity.
  split; [exact H|].
  exact (proj1 (@crear_responde_y_leer sqlite _ _ _ _ H)).
Defined.
